(** * PyEt [utils.py]: solar geometry helpers

    A shallow embedding of [pyet/utils.py] and the properties its
    specification states about it.

    Numbers.  A Python/numpy float is modelled as an exact real or the
    not-a-number sentinel ([fval]); rounding error, infinities and overflow
    are outside the model.  An operand is either a Python scalar or a
    one-dimensional positional sequence, a numpy array or a pandas [Index]
    ([arr]); binary operations broadcast as numpy does: a scalar or a
    sequence of one element against a sequence, and [ValueError] on two
    sequences of other different lengths.  A labelled pandas [Series],
    which is aligned on its labels instead, is outside the model.

    Names.  A Python function body resolves its free names in the module's
    global namespace when the call is executed.  The names bound by the
    import statements of the module are resolved statically below; the
    names the module uses without binding them ([clip], [maximum]) are
    looked up in an explicit [namespace]. *)

From Stdlib Require Import Reals Machin Lra Lia ZArith List.
From Stdlib Require Import Ascii String DecimalString DecimalNat.
From stdpp Require Import base option gmap strings list.

Local Open Scope R_scope.

(** ** Exceptions and results *)

Inductive exn : Type :=
| NameError (name : string)
| TypeError
| ValueError.

Inductive result (A : Type) : Type :=
| Ok (a : A)
| Raise (e : exn).

Arguments Ok {A} a.
Arguments Raise {A} e.

#[global] Instance result_ret : MRet result := fun A a => Ok a.

#[global] Instance result_bind : MBind result := fun A B k m =>
  match m with
  | Ok a => k a
  | Raise e => Raise e
  end.

Definition raises {A : Type} (m : result A) : Prop :=
  match m with
  | Ok _ => False
  | Raise _ => True
  end.

(** ** Floats and arrays *)

Inductive fval : Type :=
| Num (r : R)
| NaN.

Inductive arr : Type :=
| Scalar (x : fval)
| Series (xs : list fval).

Definition lift1 (f : R -> R) (x : fval) : fval :=
  match x with
  | Num r => Num (f r)
  | NaN => NaN
  end.

Definition lift2 (f : R -> R -> R) (x y : fval) : fval :=
  match x, y with
  | Num a, Num b => Num (f a b)
  | _, _ => NaN
  end.

(** A unary element-wise function, or an expression in one array operand
    and scalar constants. *)
Definition amap (f : fval -> fval) (a : arr) : arr :=
  match a with
  | Scalar x => Scalar (f x)
  | Series xs => Series (map f xs)
  end.

Fixpoint zip2 (f : fval -> fval -> fval) (xs ys : list fval) : list fval :=
  match xs, ys with
  | x :: xs', y :: ys' => f x y :: zip2 f xs' ys'
  | _, _ => []
  end.

(** A binary element-wise operation on two operands: sequences of the same
    length are combined position by position, a sequence of one element is
    stretched over the other operand, and the operands cannot be broadcast
    together otherwise. *)
Definition broadcast2 (f : fval -> fval -> fval) (a b : arr) : result arr :=
  match a, b with
  | Scalar x, Scalar y => Ok (Scalar (f x y))
  | Scalar x, Series ys => Ok (Series (map (f x) ys))
  | Series xs, Scalar y => Ok (Series (map (fun x => f x y) xs))
  | Series xs, Series ys =>
      if Nat.eqb (length xs) (length ys)
      then Ok (Series (zip2 f xs ys))
      else
        match xs, ys with
        | [x], _ => Ok (Series (map (f x) ys))
        | _, [y] => Ok (Series (map (fun x => f x y) xs))
        | _, _ => Raise ValueError
        end
  end.

Definition add : arr -> arr -> result arr := broadcast2 (lift2 Rplus).
Definition sub : arr -> arr -> result arr := broadcast2 (lift2 Rminus).
Definition mul : arr -> arr -> result arr := broadcast2 (lift2 Rmult).
Definition neg : arr -> arr := amap (lift1 Ropp).

(** The number of elements of a sequence; a scalar has none. *)
Definition arr_len (a : arr) : option nat :=
  match a with
  | Scalar _ => None
  | Series xs => Some (length xs)
  end.

(** ** The numpy functions the module calls *)

Module np.

Definition pi : R := PI.

Definition sin : arr -> arr := amap (lift1 Rtrigo_def.sin).
Definition cos : arr -> arr := amap (lift1 Rtrigo_def.cos).
Definition tan : arr -> arr := amap (lift1 Rtrigo1.tan).

(** [arccos] is not-a-number outside [-1, 1]. *)
Definition arccos1 (x : fval) : fval :=
  match x with
  | Num r =>
      if Rle_dec (-1) r
      then if Rle_dec r 1 then Num (acos r) else NaN
      else NaN
  | NaN => NaN
  end.

Definition arccos : arr -> arr := amap arccos1.

(** [maximum] and [minimum] propagate not-a-number. *)
Definition maximum (a b : arr) : result arr := broadcast2 (lift2 Rmax) a b.
Definition minimum (a b : arr) : result arr := broadcast2 (lift2 Rmin) a b.

(** [clip(a, a_min, a_max)] is [minimum(maximum(a, a_min), a_max)]. *)
Definition clip (a a_min a_max : arr) : result arr :=
  m ← maximum a a_min; minimum m a_max.

(** Round half to even, the rounding of [rint]. *)
Definition rint (x : R) : Z :=
  let f := Zfloor x in
  let d := x - IZR f in
  if Rlt_dec d (1 / 2) then f
  else if Rlt_dec (1 / 2) d then (f + 1)%Z
  else if Z.even f then f else (f + 1)%Z.

End np.

(** ** The builtin [round] *)

(** [round(x, ndigits)] calls the [__round__] method of the type of [x] and
    raises [TypeError] when the type has none.  A float has one, which
    rounds half to even at [ndigits] decimals.  A sequence here is a pandas
    [Index]: the one call of the module, line 29, is on [24 / pi * sangle],
    which arithmetic and the numpy functions keep of the type of
    [day_of_year(meteoindex)], the [Index] that [to_numeric] returns; an
    [Index] has no [__round__]. *)
Definition round (a : arr) (ndigits : nat) : result arr :=
  match a with
  | Scalar x =>
      Ok (Scalar (lift1 (fun r => IZR (np.rint (r * 10 ^ ndigits)) / 10 ^ ndigits) x))
  | Series _ => Raise TypeError
  end.

(** ** Global names *)

(** What a global name can be bound to: a function of positional arguments. *)
Abbreviation callable := (list arr -> result arr).

Abbreviation namespace := (gmap string callable).

Definition fn1 (f : arr -> arr) : callable := fun args =>
  match args with
  | [a] => Ok (f a)
  | _ => Raise TypeError
  end.

Definition fn2 (f : arr -> arr -> result arr) : callable := fun args =>
  match args with
  | [a; b] => f a b
  | _ => Raise TypeError
  end.

Definition fn3 (f : arr -> arr -> arr -> result arr) : callable := fun args =>
  match args with
  | [a; b; c] => f a b c
  | _ => Raise TypeError
  end.

(** Look a global name up and call what it is bound to; an unbound name
    raises [NameError] before any argument is used. *)
Definition call (G : namespace) (name : string) (args : list arr) : result arr :=
  match G !! name with
  | Some f => f args
  | None => Raise (NameError name)
  end.

(** The callables that [from numpy import tan, cos, pi, sin, arccos] binds
    in the module.  The other global names of the module, [pi],
    [to_numeric] and the functions it defines, are not of this type and are
    resolved statically; none of them, and no Python builtin, is named
    [clip] or [maximum]. *)
Definition utils_globals : namespace :=
  <["tan" := fn1 np.tan]>
    (<["cos" := fn1 np.cos]>
       (<["sin" := fn1 np.sin]>
          (<["arccos" := fn1 np.arccos]> ∅))).

(** The namespace the module would have, had it also imported [clip] and
    [maximum] from numpy. *)
Definition numpy_globals : namespace :=
  <["clip" := fn3 np.clip]> (<["maximum" := fn2 np.maximum]> utils_globals).

(** ** The time index *)

(** An entry of a [DatetimeIndex], with the fields the module reads. *)
Record timestamp : Type := mkTimestamp {
  year : nat;
  month : nat;
  day : nat;
  hour : nat
}.

Definition is_leap (y : nat) : bool :=
  (y mod 4 =? 0)%nat && (negb (y mod 100 =? 0)%nat || (y mod 400 =? 0)%nat).

Definition days_before_month (leap : bool) (m : nat) : nat :=
  (nth (m - 1) [0; 31; 59; 90; 120; 151; 181; 212; 243; 273; 304; 334] 0
   + (if leap && (2 <? m) then 1 else 0))%nat.

(** The ordinal day of a timestamp within its calendar year. *)
Definition yday (t : timestamp) : nat :=
  (days_before_month (is_leap (year t)) (month t) + day t)%nat.

Definition pad3 (s : string) : string :=
  match String.length s with
  | 0%nat => "000" ++ s
  | 1%nat => "00" ++ s
  | 2%nat => "0" ++ s
  | _ => s
  end.

(** [meteoindex.strftime('%j')]: the day of the year as a decimal number,
    zero-padded to three digits. *)
Definition strftime_j (meteoindex : list timestamp) : list string :=
  map (fun t => pad3 (NilEmpty.string_of_uint (Nat.to_uint (yday t)))) meteoindex.

(** [pandas.to_numeric] on one string: an unsigned decimal literal is read
    as its value; no other string is produced by [strftime_j], and the
    model treats them all as unparsable. *)
Definition to_numeric1 (s : string) : result fval :=
  match s with
  | EmptyString => Raise ValueError
  | _ =>
      match NilEmpty.uint_of_string s with
      | Some d => Ok (Num (INR (Nat.of_uint d)))
      | None => Raise ValueError
      end
  end.

Definition to_numeric (ss : list string) : result arr :=
  xs ← mapM to_numeric1 ss; Ok (Series xs).

(** [meteoindex.hour] *)
Definition hours (meteoindex : list timestamp) : arr :=
  Series (map (fun t => Num (INR (hour t))) meteoindex).

(** ** The module [pyet/utils.py] *)

Definition day_of_year (meteoindex : list timestamp) : result arr :=
  to_numeric (strftime_j meteoindex).

(** [0.4093 * sin(2. * 3.141592654 / 365. * j - 1.39)] at one element. *)
Definition solar_declination1 (j : R) : R :=
  0.4093 * sin (2 * 3.141592654 / 365 * j - 1.39).

Definition solar_declination (j : arr) : arr :=
  amap (lift1 solar_declination1) j.

(** [1 + 0.033 * cos((2. * 3.141592654 / 365.) * j)] at one element. *)
Definition relative_distance1 (j : R) : R :=
  1 + 0.033 * cos ((2 * 3.141592654 / 365) * j).

Definition relative_distance (j : arr) : arr :=
  amap (lift1 relative_distance1) j.

Definition sunset_angle (sol_dec lat : arr) : result arr :=
  p ← mul (neg (np.tan sol_dec)) (np.tan lat);
  Ok (np.arccos p).

Definition daylight_hours (meteoindex : list timestamp) (lat : arr) : result arr :=
  j ← day_of_year meteoindex;
  let sol_dec := solar_declination j in
  sangle ← sunset_angle sol_dec lat;
  round (amap (lift1 (fun x => 24 / np.pi * x)) sangle) 1.

(** The local [b] of [sunset_angle_hour]: [2*pi*(j-81)/364]. *)
Definition seasonal_b (j : arr) : arr :=
  amap (lift1 (fun x => 2 * np.pi * (x - 81) / 364)) j.

(** The local [sc] of [sunset_angle_hour]:
    [0.1645*sin(2*b) - 0.1255*cos(b) - 0.025*sin(b)]. *)
Definition seasonal_sc (b : arr) : arr :=
  amap (lift1 (fun x => 0.1645 * sin (2 * x) - 0.1255 * cos x - 0.025 * sin x)) b.

(** The local [sol_t] of [sunset_angle_hour]: [t+0.06667*(lz-lm)+sc-12]
    with [t = meteoindex.hour + 0.5]. *)
Definition solar_time (meteoindex : list timestamp) (lz lm : fval) (sc : arr)
  : result arr :=
  let t := amap (lift1 (fun h => h + 0.5)) (hours meteoindex) in
  let shift := lift2 Rmult (Num 0.06667) (lift2 Rminus lz lm) in
  s ← add (amap (fun x => lift2 Rplus x shift) t) sc;
  Ok (amap (lift1 (fun x => x - 12)) s).

Definition sunset_angle_hour (G : namespace) (meteoindex : list timestamp)
    (lz lm : fval) (lat sol_dec : arr) : result (arr * arr) :=
  j ← day_of_year meteoindex;
  let b := seasonal_b j in
  let sc := seasonal_sc b in
  sol_t ← solar_time meteoindex lz lm sc;
  let omega := np.pi / 12 in
  let omega1 := Scalar (Num (omega - np.pi / 24)) in
  let omega2 := Scalar (Num (omega + np.pi / 24)) in
  p ← mul (neg (np.tan lat)) (np.tan sol_dec);
  let omegas := np.arccos p in
  omega1 ← call G "clip" [omega1; neg omegas; omegas];
  omega2 ← call G "clip" [omega2; neg omegas; omegas];
  omega1 ← call G "maximum" [omega1; omega1];
  omega1 ← call G "clip" [omega1; Scalar (Num (-100000000)); omega2];
  Ok (omega2, omega1).

Definition extraterrestrial_r (meteoindex : list timestamp) (lat : arr)
  : result arr :=
  j ← day_of_year meteoindex;
  let dr := relative_distance j in
  let sol_dec := solar_declination j in
  omega ← sunset_angle lat sol_dec;
  xx ← mul (np.sin sol_dec) (np.sin lat);
  yy ← mul (np.cos sol_dec) (np.cos lat);
  ox ← mul omega xx;
  ys ← mul yy (np.sin omega);
  s ← add ox ys;
  mul (amap (lift1 (fun x => 118.08 / 3.141592654 * x)) dr) s.

Definition extraterrestrial_r_hour (G : namespace) (meteoindex : list timestamp)
    (lat : arr) (lz lm : fval) : result arr :=
  j ← day_of_year meteoindex;
  let dr := relative_distance j in
  let sol_dec := solar_declination j in
  '(omega2, omega1) ← sunset_angle_hour G meteoindex lz lm lat sol_dec;
  xx ← mul (np.sin sol_dec) (np.sin lat);
  yy ← mul (np.cos sol_dec) (np.cos lat);
  let gsc := 4.92 in
  d ← sub omega2 omega1;
  dx ← mul d xx;
  ds ← sub (np.sin omega2) (np.sin omega1);
  ys ← mul yy ds;
  s ← add dx ys;
  mul (amap (lift1 (fun x => 12 / np.pi * gsc * x)) dr) s.

(** ** The formulas in the words of the specification *)

(** Element-wise relation between two operands of the same shape. *)
Definition elementwise (P : fval -> fval -> Prop) (a b : arr) : Prop :=
  match a, b with
  | Scalar x, Scalar y => P x y
  | Series xs, Series ys => Forall2 P xs ys
  | _, _ => False
  end.

(** The specification's declination, written with the number pi. *)
Definition declination_spec (j : R) : R :=
  0.4093 * sin (2 * PI / 365 * j - 1.39).

(** The specification's relative distance, written with the number pi. *)
Definition dr_spec (j : R) : R :=
  1 + 0.033 * cos (2 * PI / 365 * j).

(** What the specification states of [sunset_angle] at one element:
    not-a-number when [|tan(sol_dec) * tan(lat)| > 1], otherwise a value
    in [[0, pi]]. *)
Definition sunset_angle_spec (sol_dec lat : R) (v : fval) : Prop :=
  if Rlt_dec 1 (Rabs (tan sol_dec * tan lat))
  then v = NaN
  else exists w, v = Num w /\ 0 <= w <= PI.

(** The specification's daylight hours at one element:
    [round(24/pi * sunset_angle(solar_declination(j), lat), 1)]. *)
Definition daylight_hours_spec (j lat : R) : fval :=
  lift1 (fun x => IZR (np.rint (x * 10 ^ 1)) / 10 ^ 1)
    (lift1 (fun x => 24 / PI * x)
       (np.arccos1 (Num (- tan (solar_declination1 j) * tan lat)))).

(** [extraterrestrial_r] with the call of [sunset_angle] written in the
    parameter order of its definition. *)
Definition extraterrestrial_r_declared_order (meteoindex : list timestamp)
    (lat : arr) : result arr :=
  j ← day_of_year meteoindex;
  let dr := relative_distance j in
  let sol_dec := solar_declination j in
  omega ← sunset_angle sol_dec lat;
  xx ← mul (np.sin sol_dec) (np.sin lat);
  yy ← mul (np.cos sol_dec) (np.cos lat);
  ox ← mul omega xx;
  ys ← mul yy (np.sin omega);
  s ← add ox ys;
  mul (amap (lift1 (fun x => 118.08 / 3.141592654 * x)) dr) s.

(** The statements of [sunset_angle_hour] from [omega = pi/12] on; they
    read neither the time index nor the longitudes. *)
Definition hour_angle_pair (G : namespace) (lat sol_dec : arr)
  : result (arr * arr) :=
  let omega := np.pi / 12 in
  let omega1 := Scalar (Num (omega - np.pi / 24)) in
  let omega2 := Scalar (Num (omega + np.pi / 24)) in
  p ← mul (neg (np.tan lat)) (np.tan sol_dec);
  let omegas := np.arccos p in
  omega1 ← call G "clip" [omega1; neg omegas; omegas];
  omega2 ← call G "clip" [omega2; neg omegas; omegas];
  omega1 ← call G "maximum" [omega1; omega1];
  omega1 ← call G "clip" [omega1; Scalar (Num (-100000000)); omega2];
  Ok (omega2, omega1).

(** [clip] at one element. *)
Definition clip1 (x lo hi : fval) : fval := lift2 Rmin (lift2 Rmax x lo) hi.

(** The two hour angles at one element of [omegas], with numpy's [clip]
    and [maximum]. *)
Definition omega2_at (w : fval) : fval :=
  clip1 (Num (PI / 12 + PI / 24)) (lift1 Ropp w) w.

Definition omega1_at (w : fval) : fval :=
  let o := clip1 (Num (PI / 12 - PI / 24)) (lift1 Ropp w) w in
  clip1 (lift2 Rmax o o) (Num (-100000000)) (omega2_at w).

(** The comparison [x <= y] of two floats: false when either is
    not-a-number. *)
Definition fle (x y : fval) : Prop :=
  match x, y with
  | Num a, Num b => a <= b
  | _, _ => False
  end.

(** Ordered, or both not-a-number. *)
Definition le_or_nan (x y : fval) : Prop :=
  match x, y with
  | Num a, Num b => a <= b
  | NaN, NaN => True
  | _, _ => False
  end.

(** The hourly angles at one element as the code computes them by design:
    where [arccos(-tan(lat) * tan(sol_dec))] is a number the two angles are
    ordered numbers, elsewhere both are not-a-number. *)
Definition hour_angles_at (lat sol_dec omega1 omega2 : fval) : Prop :=
  match np.arccos1 (lift2 Rmult (lift1 Ropp (lift1 tan lat)) (lift1 tan sol_dec)) with
  | Num _ => exists a b, omega1 = Num a /\ omega2 = Num b /\ a <= b
  | NaN => omega1 = NaN /\ omega2 = NaN
  end.

(** What the specification states of one call of [sunset_angle_hour]: it
    returns a pair of sequences of the length of the time index, ordered
    at every element. *)
Definition hourly_ordered_claim (G : namespace) (meteoindex : list timestamp)
    (lz lm : fval) (lat sol_dec : arr) : Prop :=
  exists o2 o1,
    sunset_angle_hour G meteoindex lz lm lat sol_dec = Ok (Series o2, Series o1)
    /\ length o2 = length meteoindex
    /\ length o1 = length meteoindex
    /\ Forall2 fle o1 o2.

(** ** Element kernels and predicates for the further properties *)

(** Mirror images of two floats about [c]: numbers [a] and [c - a], or
    both not-a-number. *)
Definition mirrored (c : R) (v w : fval) : Prop :=
  match v with
  | Num a => w = Num (c - a)
  | NaN => w = NaN
  end.

(** A float that is not-a-number or satisfies [P]. *)
Definition nan_or (P : R -> Prop) (v : fval) : Prop :=
  match v with
  | Num a => P a
  | NaN => True
  end.

(** The days of each month, and the dates of the calendar. *)
Definition days_in_month (leap : bool) (m : nat) : nat :=
  nth (m - 1) [31; if leap then 29 else 28; 31; 30; 31; 30; 31; 31; 30; 31; 30; 31]%nat
      0%nat.

Definition valid_date (t : timestamp) : bool :=
  (1 <=? month t)%nat && (month t <=? 12)%nat
  && (1 <=? day t)%nat && (day t <=? days_in_month (is_leap (year t)) (month t))%nat.

(** What happens to one element of [sunset_angle] on floats: the
    specification's case split on numbers, not-a-number on not-a-number. *)
Definition sunset_angle_at (lat sol_dec v : fval) : Prop :=
  match sol_dec, lat with
  | Num d, Num l => sunset_angle_spec d l v
  | _, _ => v = NaN
  end.

(** One element of [extraterrestrial_r] for a scalar latitude: the
    radiation on day [j] at latitude [lat]. *)
Definition extraterrestrial_r1 (j lat : R) : fval :=
  let dr := relative_distance1 j in
  let sol_dec := solar_declination1 j in
  lift1 (fun omega =>
           118.08 / 3.141592654 * dr
           * (omega * (sin sol_dec * sin lat) + cos sol_dec * cos lat * sin omega))
        (np.arccos1 (Num (- tan lat * tan sol_dec))).


(** The two hour angles at one element in closed form: the constants
    [pi/24] and [pi/8] cut off at the sunset angle. *)
Definition hour_angles_closed (lat sol_dec omega1 omega2 : fval) : Prop :=
  match np.arccos1 (lift2 Rmult (lift1 Ropp (lift1 tan lat)) (lift1 tan sol_dec)) with
  | Num w => omega1 = Num (Rmin (PI / 24) w) /\ omega2 = Num (Rmin (PI / 8) w)
  | NaN => omega1 = NaN /\ omega2 = NaN
  end.

(** A radiation [r] against the sunset angle [w] of the same element: a
    non-negative number where the angle is a number, not-a-number where
    the angle is. *)
Definition radiation_of (w r : fval) : Prop :=
  match w with
  | Num _ => exists x, r = Num x /\ 0 <= x
  | NaN => r = NaN
  end.

(** * Properties *)

(** ** The result monad and broadcasting *)

Lemma bind_Ok {A B : Type} (k : A -> result B) (a : A) :
  (Ok a ≫= k) = k a.
Proof. reflexivity. Qed.

Lemma bind_Raise {A B : Type} (k : A -> result B) (e : exn) :
  (Raise e ≫= k) = Raise e.
Proof. reflexivity. Qed.

Lemma lift2_comm (f : R -> R -> R) :
  (forall a b, f a b = f b a) -> forall x y, lift2 f x y = lift2 f y x.
Proof.
  intros Hf [a|] [b|]; simpl; try reflexivity.
  now rewrite Hf.
Qed.

Lemma zip2_comm (f : fval -> fval -> fval) :
  (forall x y, f x y = f y x) -> forall xs ys, zip2 f xs ys = zip2 f ys xs.
Proof.
  intros Hf xs; induction xs as [|x xs IH]; intros [|y ys]; simpl;
    try reflexivity.
  now rewrite Hf, IH.
Qed.

Lemma zip2_length (f : fval -> fval -> fval) (xs ys : list fval) :
  length xs = length ys -> length (zip2 f xs ys) = length xs.
Proof.
  revert ys; induction xs as [|x xs IH]; intros [|y ys]; simpl;
    try discriminate; try reflexivity.
  intros [= H]; now rewrite IH.
Qed.

Lemma zip2_swap (f g : fval -> fval -> fval) :
  (forall x y, f x y = g y x) -> forall xs ys, zip2 f xs ys = zip2 g ys xs.
Proof.
  intros H xs; induction xs as [|x xs IH]; intros [|y ys]; simpl;
    try reflexivity.
  now rewrite H, IH.
Qed.

(** Exchanging the operands of an element-wise operation. *)
Lemma broadcast2_swap (f g : fval -> fval -> fval) :
  (forall x y, f x y = g y x) ->
  forall a b, broadcast2 f a b = broadcast2 g b a.
Proof.
  intros H [x|xs] [y|ys]; cbn [broadcast2].
  - now rewrite H.
  - f_equal; f_equal. apply map_ext; intros; apply H.
  - f_equal; f_equal. apply map_ext; intros; apply H.
  - rewrite (Nat.eqb_sym (length ys)).
    destruct (Nat.eqb (length xs) (length ys)) eqn:L.
    + f_equal; f_equal. now apply zip2_swap.
    + destruct xs as [|x [|x' xs']], ys as [|y [|y' ys']];
        simpl in L; try discriminate L; try reflexivity;
        f_equal; f_equal; apply map_ext; intros; apply H.
Qed.

Lemma broadcast2_comm (f : fval -> fval -> fval) :
  (forall x y, f x y = f y x) ->
  forall a b, broadcast2 f a b = broadcast2 f b a.
Proof. intros Hf. now apply broadcast2_swap. Qed.

Lemma broadcast2_amap_left (f : fval -> fval -> fval) (h : fval -> fval)
    (a b : arr) :
  broadcast2 f (amap h a) b = broadcast2 (fun x y => f (h x) y) a b.
Proof.
  destruct a as [x|xs], b as [y|ys]; cbn [amap broadcast2]; try reflexivity.
  - now rewrite map_map.
  - rewrite length_map.
    destruct (Nat.eqb (length xs) (length ys)).
    + f_equal; f_equal. clear. revert ys.
      induction xs as [|x xs IH]; intros [|y ys]; simpl; try reflexivity.
      now rewrite IH.
    + destruct xs as [|x [|x' xs']], ys as [|y [|y' ys']]; cbn [map];
        try reflexivity; now rewrite map_map.
Qed.

Lemma mul_comm (a b : arr) : mul a b = mul b a.
Proof. apply broadcast2_comm, lift2_comm, Rmult_comm. Qed.

(** Negation can be moved from one factor of a product to the other. *)
Lemma mul_neg_swap (a b : arr) : mul (neg a) b = mul (neg b) a.
Proof.
  unfold mul, neg. rewrite !broadcast2_amap_left.
  apply broadcast2_swap.
  intros [x|] [y|]; simpl; try reflexivity. f_equal; ring.
Qed.

(** ** The time index *)

Lemma to_uint_nonnil (n : nat) : Nat.to_uint n <> Decimal.Nil.
Proof.
  intros H. pose proof (Unsigned.of_to n) as E. rewrite H in E.
  simpl in E. subst n. discriminate H.
Qed.

Lemma uint_of_string_zero (s : string) (d : Decimal.uint) :
  NilEmpty.uint_of_string s = Some d ->
  NilEmpty.uint_of_string (String "0"%char s) = Some (Decimal.D0 d).
Proof. intros H. cbn [NilEmpty.uint_of_string]. now rewrite H. Qed.

Lemma to_numeric1_digits (c : Ascii.ascii) (s : string) (d : Decimal.uint) :
  NilEmpty.uint_of_string (String c s) = Some d ->
  to_numeric1 (String c s) = Ok (Num (INR (Nat.of_uint d))).
Proof. intros H. unfold to_numeric1. now rewrite H. Qed.

Lemma to_numeric1_pad3 (n : nat) :
  to_numeric1 (pad3 (NilEmpty.string_of_uint (Nat.to_uint n))) = Ok (Num (INR n)).
Proof.
  pose proof (to_uint_nonnil n) as Hnil.
  pose proof (Unsigned.of_to n) as Hn.
  pose proof (NilEmpty.usu (Nat.to_uint n)) as Hu.
  remember (Nat.to_uint n) as d eqn:Hd. clear Hd.
  remember (NilEmpty.string_of_uint d) as s eqn:Hs.
  assert (Hne : s <> EmptyString).
  { intros ->. destruct d; simpl in Hs; congruence. }
  rewrite <- Hn. unfold pad3.
  destruct s as [|c1 s1]; [congruence|].
  destruct s1 as [|c2 s2]; [|destruct s2 as [|c3 s3]];
    simpl String.length; cbv iota; cbv [String.append].
  - apply uint_of_string_zero, uint_of_string_zero in Hu.
    now rewrite (to_numeric1_digits _ _ _ Hu).
  - apply uint_of_string_zero in Hu.
    now rewrite (to_numeric1_digits _ _ _ Hu).
  - now rewrite (to_numeric1_digits _ _ _ Hu).
Qed.

Lemma day_of_year_Ok (meteoindex : list timestamp) :
  day_of_year meteoindex
  = Ok (Series (map (fun t => Num (INR (yday t))) meteoindex)).
Proof.
  unfold day_of_year, to_numeric, strftime_j.
  assert (E : mapM to_numeric1
                (map (fun t => pad3 (NilEmpty.string_of_uint (Nat.to_uint (yday t))))
                     meteoindex)
              = Ok (map (fun t => Num (INR (yday t))) meteoindex)).
  { induction meteoindex as [|t idx IH]; [reflexivity|].
    simpl. rewrite to_numeric1_pad3, bind_Ok, IH. reflexivity. }
  rewrite E. reflexivity.
Qed.

(** ** Bounds on the number pi *)

Lemma PI_upper : PI < 3.141592654.
Proof.
  pose proof (PI_2_3_7_ineq 5) as [_ H].
  unfold PI_2_3_7_tg, tg_alt, Ratan_seq in H.
  cbn [sum_f_R0 Nat.mul Nat.add] in H.
  cbn [pow INR] in H.
  lra.
Qed.

Lemma PI_lower : 3.141592653 < PI.
Proof.
  pose proof (PI_2_3_7_ineq 5) as [H _].
  unfold PI_2_3_7_tg, tg_alt, Ratan_seq in H.
  cbn [sum_f_R0 Nat.mul Nat.add] in H.
  cbn [pow INR] in H.
  lra.
Qed.

(** ** Solar declination and relative distance *)

Lemma solar_declination1_bound (j : R) :
  -0.4093 <= solar_declination1 j <= 0.4093.
Proof.
  unfold solar_declination1.
  pose proof (SIN_bound (2 * 3.141592654 / 365 * j - 1.39)). lra.
Qed.

Lemma relative_distance1_bound (j : R) :
  0.967 <= relative_distance1 j <= 1.033.
Proof.
  unfold relative_distance1.
  pose proof (COS_bound (2 * 3.141592654 / 365 * j)). lra.
Qed.

Lemma solar_declination1_differs : solar_declination1 1 <> declination_spec 1.
Proof.
  unfold solar_declination1, declination_spec.
  pose proof PI_upper. pose proof PI_lower.
  assert (L : sin (2 * PI / 365 * 1 - 1.39)
              < sin (2 * 3.141592654 / 365 * 1 - 1.39)).
  { apply sin_increasing_1; lra. }
  lra.
Qed.

Lemma relative_distance1_differs : relative_distance1 91 <> dr_spec 91.
Proof.
  unfold relative_distance1, dr_spec.
  pose proof PI_upper. pose proof PI_lower.
  assert (L : cos (2 * 3.141592654 / 365 * 91) < cos (2 * PI / 365 * 91)).
  { apply cos_decreasing_1; lra. }
  lra.
Qed.

(** The distance of the code's values from the formulas with pi. *)

Lemma Rabs_sin_le (h : R) : Rabs (sin h) <= Rabs h.
Proof.
  assert (P : forall x, 0 <= x -> Rabs (sin x) <= x).
  { intros x Hx. apply Rabs_le.
    destruct (Req_dec x 0) as [->|Hne]; [rewrite sin_0; lra|].
    assert (Hpos : 0 < x) by lra.
    pose proof (sin_lt_x x Hpos) as U.
    split; [|lra].
    destruct (Rle_lt_dec x PI) as [Hle|Hgt].
    - pose proof (sin_ge_0 x Hx Hle). lra.
    - pose proof (SIN_bound x). pose proof PI_lower. lra. }
  destruct (Rle_lt_dec 0 h) as [Hh|Hh].
  - rewrite (Rabs_pos_eq h) by exact Hh. now apply P.
  - rewrite <- (Rabs_Ropp (sin h)), <- sin_neg, <- (Rabs_Ropp h).
    rewrite (Rabs_pos_eq (- h)) by lra. apply P. lra.
Qed.

Lemma sin_lipschitz (a b : R) : Rabs (sin a - sin b) <= Rabs (a - b).
Proof.
  rewrite form4, !Rabs_mult.
  pose proof (Rabs_sin_le ((a - b) / 2)) as S.
  pose proof (COS_bound ((a + b) / 2)) as [C1 C2].
  assert (C : Rabs (cos ((a + b) / 2)) <= 1) by (apply Rabs_le; lra).
  pose proof (Rabs_pos (sin ((a - b) / 2))) as S0.
  pose proof (Rabs_pos (cos ((a + b) / 2))) as C0.
  rewrite (Rabs_pos_eq 2) by lra.
  replace (Rabs (a - b)) with (2 * Rabs ((a - b) / 2)).
  - nra.
  - unfold Rdiv. rewrite Rabs_mult, (Rabs_pos_eq (/ 2)) by lra. lra.
Qed.

Lemma cos_lipschitz (a b : R) : Rabs (cos a - cos b) <= Rabs (a - b).
Proof.
  rewrite form2, !Rabs_mult.
  pose proof (Rabs_sin_le ((a - b) / 2)) as S.
  pose proof (SIN_bound ((a + b) / 2)) as [C1 C2].
  assert (C : Rabs (sin ((a + b) / 2)) <= 1) by (apply Rabs_le; lra).
  pose proof (Rabs_pos (sin ((a - b) / 2))) as S0.
  pose proof (Rabs_pos (sin ((a + b) / 2))) as C0.
  replace (Rabs (-2)) with 2 by (rewrite Rabs_left; lra).
  replace (Rabs (a - b)) with (2 * Rabs ((a - b) / 2)).
  - nra.
  - unfold Rdiv. rewrite Rabs_mult, (Rabs_pos_eq (/ 2)) by lra. lra.
Qed.

Lemma literal_angle_close (j : R) :
  Rabs (2 * 3.141592654 / 365 * j - 2 * PI / 365 * j) <= Rabs j / 10 ^ 11.
Proof.
  pose proof PI_upper. pose proof PI_lower.
  replace (2 * 3.141592654 / 365 * j - 2 * PI / 365 * j)
    with (2 * (3.141592654 - PI) / 365 * j) by field.
  rewrite Rabs_mult, Rabs_pos_eq by lra.
  pose proof (Rabs_pos j). simpl. nra.
Qed.

Lemma solar_declination1_close (j : R) :
  Rabs (solar_declination1 j - declination_spec j) <= Rabs j / 10 ^ 11.
Proof.
  unfold solar_declination1, declination_spec.
  rewrite <- Rmult_minus_distr_l, Rabs_mult, (Rabs_pos_eq 0.4093) by lra.
  pose proof (sin_lipschitz (2 * 3.141592654 / 365 * j - 1.39)
                            (2 * PI / 365 * j - 1.39)) as L.
  replace (2 * 3.141592654 / 365 * j - 1.39 - (2 * PI / 365 * j - 1.39))
    with (2 * 3.141592654 / 365 * j - 2 * PI / 365 * j) in L by ring.
  pose proof (literal_angle_close j) as A.
  pose proof (Rabs_pos (sin (2 * 3.141592654 / 365 * j - 1.39)
                        - sin (2 * PI / 365 * j - 1.39))).
  lra.
Qed.

Lemma relative_distance1_close (j : R) :
  Rabs (relative_distance1 j - dr_spec j) <= Rabs j / 10 ^ 11.
Proof.
  unfold relative_distance1, dr_spec.
  replace (1 + 0.033 * cos (2 * 3.141592654 / 365 * j)
           - (1 + 0.033 * cos (2 * PI / 365 * j)))
    with (0.033 * (cos (2 * 3.141592654 / 365 * j) - cos (2 * PI / 365 * j)))
    by ring.
  rewrite Rabs_mult, (Rabs_pos_eq 0.033) by lra.
  pose proof (cos_lipschitz (2 * 3.141592654 / 365 * j) (2 * PI / 365 * j)) as L.
  pose proof (literal_angle_close j) as A.
  pose proof (Rabs_pos (cos (2 * 3.141592654 / 365 * j) - cos (2 * PI / 365 * j))).
  lra.
Qed.

Lemma Forall2_map_r_fval {A : Type} (P : A -> fval -> Prop) (f : A -> fval)
    (l : list A) :
  (forall x, P x (f x)) -> Forall2 P l (map f l).
Proof.
  intros H; induction l as [|x l IH]; simpl; constructor; auto.
Qed.

(** C6 (as amended).  [solar_declination] is total and element-wise: a
    number [j] is sent to [0.4093 * sin(2 * 3.141592654 / 365 * j - 1.39)],
    with the ten-digit literal of the source in the place of pi, and that
    value lies in [[-0.41, 0.41]] for every real [j]; not-a-number is sent
    to not-a-number. *)
Theorem solar_declination_elementwise (j : arr) :
  elementwise
    (fun x y =>
       match x with
       | Num r =>
           y = Num (0.4093 * sin (2 * 3.141592654 / 365 * r - 1.39))
           /\ -0.41 <= 0.4093 * sin (2 * 3.141592654 / 365 * r - 1.39) <= 0.41
       | NaN => y = NaN
       end)
    j (solar_declination j).
Proof.
  assert (K : forall x,
             match x with
             | Num r =>
                 lift1 solar_declination1 x
                 = Num (0.4093 * sin (2 * 3.141592654 / 365 * r - 1.39))
                 /\ -0.41 <= 0.4093 * sin (2 * 3.141592654 / 365 * r - 1.39) <= 0.41
             | NaN => lift1 solar_declination1 x = NaN
             end).
  { intros [r|]; simpl; [|reflexivity].
    split; [reflexivity|].
    pose proof (solar_declination1_bound r) as B.
    unfold solar_declination1 in B. lra. }
  destruct j as [x|xs]; simpl.
  - apply K.
  - apply Forall2_map_r_fval. exact K.
Qed.

(** C6, counterexample.  On day 1 the value computed by the code differs
    from the value of the formula written with pi. *)
Lemma solar_declination_not_pi_formula :
  solar_declination (Series [Num 1]) <> Series [Num (declination_spec 1)].
Proof.
  simpl. intros [= E]. exact (solar_declination1_differs E).
Qed.

(** C7 (as amended).  [relative_distance] is total and element-wise: a
    number [j] is sent to [1 + 0.033 * cos(2 * 3.141592654 / 365 * j)],
    with the ten-digit literal of the source in the place of pi, and that
    value lies in [[0.967, 1.033]] for every real [j]; not-a-number is sent
    to not-a-number. *)
Theorem relative_distance_elementwise (j : arr) :
  elementwise
    (fun x y =>
       match x with
       | Num r =>
           y = Num (1 + 0.033 * cos (2 * 3.141592654 / 365 * r))
           /\ 0.967 <= 1 + 0.033 * cos (2 * 3.141592654 / 365 * r) <= 1.033
       | NaN => y = NaN
       end)
    j (relative_distance j).
Proof.
  assert (K : forall x,
             match x with
             | Num r =>
                 lift1 relative_distance1 x
                 = Num (1 + 0.033 * cos (2 * 3.141592654 / 365 * r))
                 /\ 0.967 <= 1 + 0.033 * cos (2 * 3.141592654 / 365 * r) <= 1.033
             | NaN => lift1 relative_distance1 x = NaN
             end).
  { intros [r|]; simpl; [|reflexivity].
    split; [reflexivity|].
    pose proof (relative_distance1_bound r) as B.
    unfold relative_distance1 in B. lra. }
  destruct j as [x|xs]; simpl.
  - apply K.
  - apply Forall2_map_r_fval. exact K.
Qed.

(** C7, counterexample.  On day 91 the value computed by the code differs
    from the value of the formula written with pi. *)
Lemma relative_distance_not_pi_formula :
  relative_distance (Series [Num 91]) <> Series [Num (dr_spec 91)].
Proof.
  simpl. intros [= E]. exact (relative_distance1_differs E).
Qed.

(** ** Daily sunset angle *)

(** Case analysis on the comparisons that guard [arccos]. *)
Ltac case_arccos :=
  unfold np.arccos1;
  repeat match goal with
         | |- context [Rle_dec ?a ?b] => destruct (Rle_dec a b)
         end.

Lemma arccos1_0 : np.arccos1 (Num 0) = Num (PI / 2).
Proof. case_arccos; try (exfalso; lra). now rewrite acos_0. Qed.

Lemma equator_argument (sol_dec : R) : - tan sol_dec * tan 0 = 0.
Proof. rewrite tan_0. ring. Qed.

Lemma arccos1_spec (sol_dec lat : R) :
  sunset_angle_spec sol_dec lat (np.arccos1 (Num (- tan sol_dec * tan lat))).
Proof.
  unfold sunset_angle_spec.
  replace (- tan sol_dec * tan lat) with (- (tan sol_dec * tan lat)) by ring.
  set (p := tan sol_dec * tan lat).
  destruct (Rlt_dec 1 (Rabs p)) as [Hout|Hin].
  - unfold Rabs in Hout. destruct (Rcase_abs p); case_arccos;
      try reflexivity; lra.
  - unfold Rabs in Hin. destruct (Rcase_abs p); case_arccos; try lra;
      (eexists; split; [reflexivity|apply acos_bound]).
Qed.

Lemma sunset_angle_fval_series (sds : list fval) (lat : fval) :
  sunset_angle (Series sds) (Scalar lat)
  = Ok (Series (map (fun sd => np.arccos1
                       (lift2 Rmult (lift1 Ropp (lift1 tan sd)) (lift1 tan lat)))
                    sds)).
Proof.
  unfold sunset_angle, mul, neg, np.tan, np.arccos. simpl.
  rewrite !map_map. reflexivity.
Qed.

Lemma sunset_angle_series_scalar (sds : list R) (lat : R) :
  sunset_angle (Series (map Num sds)) (Scalar (Num lat))
  = Ok (Series (map (fun sd => np.arccos1 (Num (- tan sd * tan lat))) sds)).
Proof.
  unfold sunset_angle, mul, neg, np.tan, np.arccos. simpl.
  rewrite !map_map. reflexivity.
Qed.

(** C3.  For declinations and a latitude that are numbers, [sunset_angle]
    returns (it does not raise), on a sequence of declinations as on a
    single one, a result that is not-a-number wherever
    [|tan(sol_dec) * tan(lat)| > 1] and a value in [[0, pi]] elsewhere. *)
Theorem sunset_angle_domain (lat : R) :
  (forall sol_dec : list R,
     exists vs,
       sunset_angle (Series (map Num sol_dec)) (Scalar (Num lat)) = Ok (Series vs)
       /\ Forall2 (fun sd v => sunset_angle_spec sd lat v) sol_dec vs)
  /\ (forall sol_dec : R,
        exists v,
          sunset_angle (Scalar (Num sol_dec)) (Scalar (Num lat)) = Ok (Scalar v)
          /\ sunset_angle_spec sol_dec lat v).
Proof.
  split.
  - intros sol_dec. eexists. split; [apply sunset_angle_series_scalar|].
    apply Forall2_map_r_fval. intros sd. apply arccos1_spec.
  - intros sol_dec. eexists. split; [reflexivity|]. apply arccos1_spec.
Qed.

Lemma sunset_angle_comm (a b : arr) : sunset_angle a b = sunset_angle b a.
Proof. unfold sunset_angle. now rewrite mul_neg_swap. Qed.

(** C4 (as amended).  [sunset_angle] is symmetric in its two arguments, for
    operands of every shape, so the call [sunset_angle(lat, sol_dec)] inside
    [extraterrestrial_r] computes the same [omega] as the call in the
    declared parameter order, and [extraterrestrial_r] the same result. *)
Theorem sunset_angle_swap_symmetric :
  (forall sol_dec lat : arr, sunset_angle lat sol_dec = sunset_angle sol_dec lat)
  /\ (forall (meteoindex : list timestamp) (lat : arr),
        extraterrestrial_r meteoindex lat
        = extraterrestrial_r_declared_order meteoindex lat).
Proof.
  split.
  - intros; apply sunset_angle_comm.
  - intros idx lat. unfold extraterrestrial_r, extraterrestrial_r_declared_order.
    destruct (day_of_year idx) as [j|e]; [|reflexivity].
    rewrite !bind_Ok. cbv zeta. now rewrite sunset_angle_comm.
Qed.

(** C4, counterexample.  No declination and latitude exist at which the
    swapped call differs from the call in the declared order. *)
Lemma sunset_angle_swap_never_differs :
  ~ exists sol_dec lat : arr, sunset_angle lat sol_dec <> sunset_angle sol_dec lat.
Proof.
  intros (sol_dec & lat & H). apply H, sunset_angle_comm.
Qed.

(** ** Daylight hours *)

Lemma rint_IZR (z : Z) : np.rint (IZR z) = z.
Proof.
  unfold np.rint. rewrite ZfloorZ.
  destruct (Rlt_dec (IZR z - IZR z) (1 / 2)) as [_|H]; [reflexivity|].
  exfalso; apply H; lra.
Qed.

Lemma broadcast2_series_l (f : fval -> fval -> fval) (xs : list fval) (b r : arr) :
  broadcast2 f (Series xs) b = Ok r -> exists rs, r = Series rs.
Proof.
  destruct b as [y|ys]; cbn [broadcast2].
  - intros [= <-]. eexists; reflexivity.
  - destruct (Nat.eqb (length xs) (length ys)).
    + intros [= <-]. eexists; reflexivity.
    + destruct xs as [|x [|x' xs']], ys as [|y [|y' ys']];
        intros [= <-]; eexists; reflexivity.
Qed.

(** The sunset angle of a sequence of declinations is a sequence. *)
Lemma sunset_angle_series_l (xs : list fval) (lat r : arr) :
  sunset_angle (Series xs) lat = Ok r -> exists rs, r = Series rs.
Proof.
  unfold sunset_angle, mul, neg, np.tan. cbn [amap].
  destruct (broadcast2 _ _ _) as [p|e] eqn:E; [|discriminate].
  apply broadcast2_series_l in E as [ps ->].
  rewrite bind_Ok. intros [= <-]. eexists; reflexivity.
Qed.

(** Line 29 raises whenever lines 26 to 28 have run. *)
Lemma daylight_hours_raises (meteoindex : list timestamp) (lat : arr) :
  raises (daylight_hours meteoindex lat).
Proof.
  unfold daylight_hours. rewrite day_of_year_Ok, bind_Ok. cbv zeta.
  unfold solar_declination. cbn [amap].
  destruct (sunset_angle _ lat) as [r|e] eqn:E; [|exact I].
  apply sunset_angle_series_l in E as [rs ->]. exact I.
Qed.

Lemma daylight_hours_scalar (meteoindex : list timestamp) (lat : fval) :
  daylight_hours meteoindex (Scalar lat) = Raise TypeError.
Proof.
  unfold daylight_hours. rewrite day_of_year_Ok, bind_Ok. cbv zeta.
  unfold solar_declination. cbn [amap].
  rewrite sunset_angle_fval_series, bind_Ok. reflexivity.
Qed.

(** C5, the code at every input.  Lines 26 to 28 of [daylight_hours] run
    and give the sunset angles of the days of the index, a sequence of the
    length of the index; the builtin [round] of line 29 then raises
    [TypeError] on it, for every index and latitude, where the
    specification has the call equal the rounded composite. *)
Theorem daylight_hours_TypeError (meteoindex : list timestamp) :
  (forall lat : fval, daylight_hours meteoindex (Scalar lat) = Raise TypeError)
  /\ (forall lat : arr, raises (daylight_hours meteoindex lat))
  /\ (forall lat : R,
        exists j ws,
          day_of_year meteoindex = Ok j
          /\ sunset_angle (solar_declination j) (Scalar (Num lat)) = Ok (Series ws)
          /\ length ws = length meteoindex).
Proof.
  split; [intros lat; apply daylight_hours_scalar|].
  split; [intros lat; apply daylight_hours_raises|].
  intros lat. do 2 eexists. split; [apply day_of_year_Ok|].
  unfold solar_declination. cbn [amap].
  rewrite sunset_angle_fval_series.
  split; [reflexivity|]. now rewrite !length_map.
Qed.

Lemma daylight_hours_spec_equator (j : R) : daylight_hours_spec j 0 = Num 12.
Proof.
  unfold daylight_hours_spec.
  rewrite equator_argument, arccos1_0. cbn [lift1]. f_equal.
  replace (24 / PI * (PI / 2) * 10 ^ 1) with (IZR 120)
    by (simpl; field; apply PI_neq0).
  rewrite rint_IZR. simpl. lra.
Qed.

Lemma sunset_angle_equator (sds : list R) :
  sunset_angle (Series (map Num sds)) (Scalar (Num 0))
  = Ok (Series (map (fun _ => Num (PI / 2)) sds)).
Proof.
  rewrite sunset_angle_series_scalar. f_equal; f_equal.
  apply map_ext; intros sd.
  now rewrite equator_argument, arccos1_0.
Qed.

(** C8, the code at latitude 0.  The sunset angle of line 28 is [pi/2] for
    every declination and the rounded composite of the specification is
    12.0 on every day, but [daylight_hours] returns neither: the builtin
    [round] of line 29 raises [TypeError] for every index. *)
Theorem daylight_hours_equator_TypeError (meteoindex : list timestamp) :
  daylight_hours meteoindex (Scalar (Num 0)) = Raise TypeError
  /\ (forall sds : list R,
        sunset_angle (Series (map Num sds)) (Scalar (Num 0))
        = Ok (Series (map (fun _ => Num (PI / 2)) sds)))
  /\ (forall j : R, daylight_hours_spec j 0 = Num 12).
Proof.
  split; [apply daylight_hours_scalar|].
  split; [apply sunset_angle_equator|apply daylight_hours_spec_equator].
Qed.

(** ** The seasonal correction of the hourly variant *)

(** C9.  Where the day of the year is 81, the seasonal correction [b] is 0
    and the time-correction term [sc] is [-0.1255]. *)
Theorem seasonal_correction_day_81 (a : arr) :
  seasonal_b (amap (fun _ => Num 81) a) = amap (fun _ => Num 0) a
  /\ seasonal_sc (seasonal_b (amap (fun _ => Num 81) a))
     = amap (fun _ => Num (-0.1255)) a.
Proof.
  assert (B : 2 * np.pi * (81 - 81) / 364 = 0) by (unfold np.pi; field).
  assert (S : 0.1645 * sin (2 * 0) - 0.1255 * cos 0 - 0.025 * sin 0 = -0.1255).
  { rewrite Rmult_0_r, sin_0, cos_0. lra. }
  assert (E : seasonal_b (amap (fun _ => Num 81) a) = amap (fun _ => Num 0) a).
  { destruct a as [x|xs]; unfold seasonal_b; cbn [amap lift1].
    - now rewrite B.
    - rewrite map_map. cbn [lift1]. now rewrite B. }
  split; [exact E|].
  rewrite E. destruct a as [x|xs]; unfold seasonal_sc; cbn [amap lift1].
  - now rewrite S.
  - rewrite map_map. cbn [lift1]. now rewrite S.
Qed.

(** ** Hourly sunset and sunrise angles *)

Lemma arr_len_amap (f : fval -> fval) (a : arr) :
  arr_len (amap f a) = arr_len a.
Proof. destruct a; simpl; [reflexivity|now rewrite length_map]. Qed.

Lemma solar_time_Ok (meteoindex : list timestamp) (lz lm : fval) (sc : arr) :
  arr_len sc = Some (length meteoindex) ->
  exists sol_t, solar_time meteoindex lz lm sc = Ok sol_t.
Proof.
  destruct sc as [x|xs]; simpl; [discriminate|]. intros [= L].
  unfold solar_time, hours, add. cbn [amap broadcast2].
  rewrite !length_map, L, Nat.eqb_refl. rewrite bind_Ok. eexists; reflexivity.
Qed.

(** The time index and the longitudes only feed the unused [sol_t]. *)
Lemma sunset_angle_hour_tail (G : namespace) (meteoindex : list timestamp)
    (lz lm : fval) (lat sol_dec : arr) :
  sunset_angle_hour G meteoindex lz lm lat sol_dec = hour_angle_pair G lat sol_dec.
Proof.
  unfold sunset_angle_hour. rewrite day_of_year_Ok, bind_Ok. cbv zeta.
  destruct (solar_time_Ok meteoindex lz lm
              (seasonal_sc (seasonal_b
                 (Series (map (fun t => Num (INR (yday t))) meteoindex)))))
    as [sol_t E].
  { unfold seasonal_sc, seasonal_b. rewrite !arr_len_amap. simpl.
    now rewrite length_map. }
  rewrite E, bind_Ok. reflexivity.
Qed.

Lemma broadcast2_scalar_l (f : fval -> fval -> fval) (c : fval)
    (h : fval -> fval) (a : arr) :
  broadcast2 f (Scalar c) (amap h a) = Ok (amap (fun x => f c (h x)) a).
Proof. destruct a; simpl; [reflexivity|now rewrite map_map]. Qed.

Lemma broadcast2_scalar_r (f : fval -> fval -> fval) (g : fval -> fval)
    (c : fval) (a : arr) :
  broadcast2 f (amap g a) (Scalar c) = Ok (amap (fun x => f (g x) c) a).
Proof. destruct a; simpl; [reflexivity|now rewrite map_map]. Qed.

Lemma zip2_map (f : fval -> fval -> fval) (g h : fval -> fval) (xs : list fval) :
  zip2 f (map g xs) (map h xs) = map (fun x => f (g x) (h x)) xs.
Proof. induction xs as [|x xs IH]; simpl; [reflexivity|now rewrite IH]. Qed.

Lemma broadcast2_same (f : fval -> fval -> fval) (g h : fval -> fval) (a : arr) :
  broadcast2 f (amap g a) (amap h a) = Ok (amap (fun x => f (g x) (h x)) a).
Proof.
  destruct a as [x|xs]; simpl; [reflexivity|].
  now rewrite !length_map, Nat.eqb_refl, zip2_map.
Qed.

Lemma broadcast2_amap_l (f : fval -> fval -> fval) (g : fval -> fval) (a : arr) :
  broadcast2 f (amap g a) a = Ok (amap (fun x => f (g x) x) a).
Proof.
  destruct a as [x|xs]; simpl; [reflexivity|].
  rewrite length_map, Nat.eqb_refl.
  rewrite <- (map_id xs) at 2. now rewrite zip2_map.
Qed.

Lemma clip_symmetric_bounds (c : fval) (a : arr) :
  np.clip (Scalar c) (neg a) a
  = Ok (amap (fun w => clip1 c (lift1 Ropp w) w) a).
Proof.
  unfold np.clip, np.maximum, np.minimum, neg.
  rewrite broadcast2_scalar_l, bind_Ok.
  now rewrite broadcast2_amap_l.
Qed.

Lemma clip_scalar_lower (g h : fval -> fval) (c : fval) (a : arr) :
  np.clip (amap g a) (Scalar c) (amap h a)
  = Ok (amap (fun w => clip1 (g w) c (h w)) a).
Proof.
  unfold np.clip, np.maximum, np.minimum.
  rewrite broadcast2_scalar_r, bind_Ok.
  now rewrite broadcast2_same.
Qed.

Section NumpyBound.

(** A namespace in which the two names the module leaves unbound are bound
    to numpy's functions. *)
Context (G : namespace).
Hypothesis Hclip : G !! "clip" = Some (fn3 np.clip).
Hypothesis Hmax : G !! "maximum" = Some (fn2 np.maximum).

(** The pair is computed element by element from [omegas]. *)
Lemma hour_angle_pair_numpy (lat sol_dec p : arr) :
  mul (neg (np.tan lat)) (np.tan sol_dec) = Ok p ->
  hour_angle_pair G lat sol_dec
  = Ok (amap omega2_at (np.arccos p), amap omega1_at (np.arccos p)).
Proof.
  intros Hp.
  unfold hour_angle_pair. cbv zeta. rewrite Hp, bind_Ok.
  unfold call. rewrite Hclip, Hmax. unfold fn3, fn2.
  rewrite !clip_symmetric_bounds, !bind_Ok.
  unfold np.maximum at 1. rewrite broadcast2_same, bind_Ok.
  rewrite clip_scalar_lower, bind_Ok.
  reflexivity.
Qed.

Lemma sunset_angle_hour_series (meteoindex : list timestamp)
    (lz lm lat : fval) (sol_dec : list fval) :
  sunset_angle_hour G meteoindex lz lm (Scalar lat) (Series sol_dec)
  = Ok (Series (map (fun d => omega2_at (np.arccos1
                      (lift2 Rmult (lift1 Ropp (lift1 tan lat)) (lift1 tan d))))
                    sol_dec),
        Series (map (fun d => omega1_at (np.arccos1
                      (lift2 Rmult (lift1 Ropp (lift1 tan lat)) (lift1 tan d))))
                    sol_dec)).
Proof.
  rewrite sunset_angle_hour_tail.
  rewrite (hour_angle_pair_numpy _ _
             (Series (map (fun d => lift2 Rmult (lift1 Ropp (lift1 tan lat))
                                                (lift1 tan d)) sol_dec))).
  - unfold np.arccos. cbn [amap]. now rewrite !map_map.
  - unfold mul, neg, np.tan. cbn [amap broadcast2]. now rewrite map_map.
Qed.

End NumpyBound.

Lemma omega_at_ordered (w : fval) : le_or_nan (omega1_at w) (omega2_at w).
Proof. destruct w as [r|]; simpl; [apply Rmin_r|exact I]. Qed.

Lemma omega_at_hour_angles (lat sol_dec : fval) :
  hour_angles_at lat sol_dec
    (omega1_at (np.arccos1 (lift2 Rmult (lift1 Ropp (lift1 tan lat))
                                        (lift1 tan sol_dec))))
    (omega2_at (np.arccos1 (lift2 Rmult (lift1 Ropp (lift1 tan lat))
                                        (lift1 tan sol_dec)))).
Proof.
  unfold hour_angles_at.
  destruct (np.arccos1 _) as [r|]; simpl.
  - do 2 eexists. repeat split. apply Rmin_r.
  - split; reflexivity.
Qed.

Lemma Forall3_map_fval {A : Type} (P : A -> fval -> fval -> Prop)
    (f g : A -> fval) (l : list A) :
  (forall x, P x (f x) (g x)) -> Forall3 P l (map f l) (map g l).
Proof.
  intros H; induction l as [|x l IH]; simpl; constructor; auto.
Qed.

Lemma Forall2_map_both_fval {A : Type} (P : fval -> fval -> Prop)
    (f g : A -> fval) (l : list A) :
  (forall x, P (f x) (g x)) -> Forall2 P (map f l) (map g l).
Proof.
  intros H; induction l as [|x l IH]; simpl; constructor; auto.
Qed.

(** C2 (as amended).  With numpy's [clip] and [maximum] bound to the names
    the function calls, [sunset_angle_hour] on a scalar latitude and a
    sequence of declinations returns a pair [(omega2, omega1)] of sequences
    of the length of that sequence; at every element the two are ordered
    numbers, [omega1 <= omega2], where [arccos(-tan(lat) * tan(sol_dec))]
    is a number, and both are not-a-number elsewhere. *)
Theorem sunset_angle_hour_ordered (G : namespace) (meteoindex : list timestamp)
    (lz lm lat : fval) (sol_dec : list fval) :
  G !! "clip" = Some (fn3 np.clip) ->
  G !! "maximum" = Some (fn2 np.maximum) ->
  exists o2 o1,
    sunset_angle_hour G meteoindex lz lm (Scalar lat) (Series sol_dec)
    = Ok (Series o2, Series o1)
    /\ length o2 = length sol_dec
    /\ length o1 = length sol_dec
    /\ Forall2 le_or_nan o1 o2
    /\ Forall3 (hour_angles_at lat) sol_dec o1 o2.
Proof.
  intros Hclip Hmax. do 2 eexists.
  split; [apply (sunset_angle_hour_series G Hclip Hmax)|].
  rewrite !length_map. repeat split.
  - apply Forall2_map_both_fval. intros d. apply omega_at_ordered.
  - apply Forall3_map_fval. intros d. apply omega_at_hour_angles.
Qed.

(** At 75 degrees north and a declination of 22.5 degrees the sun does not
    set: the argument of [arccos] is below -1. *)
Lemma tan_polar : 1 < tan (5 * PI / 12) * tan (PI / 8).
Proof.
  pose proof PI_RGT_0 as Hpi.
  assert (Hs : 0 < sin (PI / 12)) by (apply sin_gt_0; lra).
  assert (Hc : 0 < cos (PI / 12)) by (apply cos_gt_0; lra).
  assert (E : tan (5 * PI / 12) * tan (PI / 12) = 1).
  { replace (5 * PI / 12) with (PI / 2 - PI / 12) by field.
    unfold tan. rewrite sin_shift, cos_shift. field. split; lra. }
  assert (L : tan (PI / 12) < tan (PI / 8)) by (apply tan_increasing; lra).
  assert (P : 0 < tan (5 * PI / 12)) by (apply tan_gt_0; lra).
  nra.
Qed.

Lemma arccos1_polar :
  np.arccos1 (lift2 Rmult (lift1 Ropp (lift1 tan (Num (5 * PI / 12))))
                          (lift1 tan (Num (PI / 8)))) = NaN.
Proof.
  simpl. pose proof tan_polar as H.
  destruct (Rle_dec (-1) (- tan (5 * PI / 12) * tan (PI / 8))) as [L|_];
    [exfalso; lra|reflexivity].
Qed.

Lemma utils_globals_clip : utils_globals !! "clip" = None.
Proof.
  unfold utils_globals. rewrite !lookup_insert_ne by done. apply lookup_empty.
Qed.

Lemma numpy_globals_clip : numpy_globals !! "clip" = Some (fn3 np.clip).
Proof. unfold numpy_globals. apply lookup_insert_eq. Qed.

Lemma numpy_globals_maximum : numpy_globals !! "maximum" = Some (fn2 np.maximum).
Proof.
  unfold numpy_globals. rewrite lookup_insert_ne by done. apply lookup_insert_eq.
Qed.

(** Without a binding of [clip], the first call of [clip] raises. *)
Lemma hour_angle_pair_unbound (G : namespace) (lat : fval) (sol_dec : arr) :
  G !! "clip" = None ->
  hour_angle_pair G (Scalar lat) sol_dec = Raise (NameError "clip").
Proof.
  intros H. unfold hour_angle_pair. cbv zeta.
  assert (E : exists p, mul (neg (np.tan (Scalar lat))) (np.tan sol_dec) = Ok p).
  { destruct sol_dec; simpl; eexists; reflexivity. }
  destruct E as [p ->]. rewrite bind_Ok.
  unfold call. now rewrite H.
Qed.

Lemma hour_angle_pair_unbound_raises (G : namespace) (lat sol_dec : arr) :
  G !! "clip" = None -> raises (hour_angle_pair G lat sol_dec).
Proof.
  intros H. unfold hour_angle_pair. cbv zeta.
  destruct (mul (neg (np.tan lat)) (np.tan sol_dec)) as [p|e]; [|exact I].
  rewrite bind_Ok. unfold call. rewrite H. exact I.
Qed.

(** C1, the code at every input.  In the namespace of the module as it is
    written, [clip] is not bound: every call of [sunset_angle_hour], and so
    of [extraterrestrial_r_hour], raises where the specification has it
    return a value, and with a scalar latitude the exception is the
    [NameError] of [clip]. *)
Theorem sunset_angle_hour_NameError (meteoindex : list timestamp) (lz lm : fval) :
  (forall (lat : fval) (sol_dec : arr),
     sunset_angle_hour utils_globals meteoindex lz lm (Scalar lat) sol_dec
     = Raise (NameError "clip"))
  /\ (forall lat : fval,
        extraterrestrial_r_hour utils_globals meteoindex (Scalar lat) lz lm
        = Raise (NameError "clip"))
  /\ (forall lat sol_dec : arr,
        raises (sunset_angle_hour utils_globals meteoindex lz lm lat sol_dec))
  /\ (forall lat : arr,
        raises (extraterrestrial_r_hour utils_globals meteoindex lat lz lm)).
Proof.
  repeat split.
  - intros lat sol_dec. rewrite sunset_angle_hour_tail.
    apply hour_angle_pair_unbound, utils_globals_clip.
  - intros lat. unfold extraterrestrial_r_hour.
    rewrite day_of_year_Ok, bind_Ok. cbv zeta.
    rewrite sunset_angle_hour_tail.
    rewrite hour_angle_pair_unbound by apply utils_globals_clip.
    reflexivity.
  - intros lat sol_dec. rewrite sunset_angle_hour_tail.
    apply hour_angle_pair_unbound_raises, utils_globals_clip.
  - intros lat. unfold extraterrestrial_r_hour.
    rewrite day_of_year_Ok, bind_Ok. cbv zeta.
    rewrite sunset_angle_hour_tail.
    pose proof (hour_angle_pair_unbound_raises utils_globals lat
                  (solar_declination
                     (Series (map (fun t => Num (INR (yday t))) meteoindex)))
                  utils_globals_clip) as H.
    destruct (hour_angle_pair utils_globals lat _) as [pr|e]; [destruct H|exact I].
Qed.

(** C2, witness: the spring equinox at 0.5 rad north. *)
Lemma sunset_angle_hour_ordered_witness :
  exists o2 o1,
    sunset_angle_hour numpy_globals [mkTimestamp 2021 3 22 12] (Num 0) (Num 0)
      (Scalar (Num 0.5)) (Series [Num 0])
    = Ok (Series o2, Series o1)
    /\ length o2 = 1%nat
    /\ length o1 = 1%nat
    /\ Forall2 le_or_nan o1 o2
    /\ Forall3 (hour_angles_at (Num 0.5)) [Num 0] o1 o2.
Proof.
  apply (sunset_angle_hour_ordered numpy_globals [mkTimestamp 2021 3 22 12]
           (Num 0) (Num 0) (Num 0.5) [Num 0]).
  - apply numpy_globals_clip.
  - apply numpy_globals_maximum.
Defined.

(** C2, counterexample.  At 75 degrees north and a declination of 22.5
    degrees the call does not return an ordered pair: with numpy's [clip]
    and [maximum] bound both angles are not-a-number, which no comparison
    orders, and in the namespace of the module as written the call raises. *)
Lemma sunset_angle_hour_polar_unordered :
  ~ hourly_ordered_claim numpy_globals [mkTimestamp 2021 6 21 12] (Num 0) (Num 0)
      (Scalar (Num (5 * PI / 12))) (Series [Num (PI / 8)])
  /\ ~ hourly_ordered_claim utils_globals [mkTimestamp 2021 6 21 12] (Num 0) (Num 0)
        (Scalar (Num (5 * PI / 12))) (Series [Num (PI / 8)]).
Proof.
  split; intros (o2 & o1 & E & _ & _ & F).
  - rewrite (sunset_angle_hour_series _ numpy_globals_clip
               numpy_globals_maximum) in E.
    cbn [map] in E. rewrite arccos1_polar in E.
    injection E as <- <-. inversion F as [|? ? ? ? Hle _]; subst.
    exact Hle.
  - rewrite sunset_angle_hour_tail in E.
    rewrite hour_angle_pair_unbound in E by apply utils_globals_clip.
    discriminate E.
Qed.

(** C10.  Two calls of [sunset_angle_hour] that agree on the day-of-year
    sequence, the latitude and the declination return the same outcome,
    whatever the hours of the two time indexes and the longitudes are, in
    every namespace: [omega] is the constant [pi/12] and [sol_t] is not
    used. *)
Theorem sunset_angle_hour_ignores_hour_and_longitude (G : namespace)
    (meteoindex1 meteoindex2 : list timestamp) (lz1 lm1 lz2 lm2 : fval)
    (lat sol_dec : arr) :
  day_of_year meteoindex1 = day_of_year meteoindex2 ->
  sunset_angle_hour G meteoindex1 lz1 lm1 lat sol_dec
  = sunset_angle_hour G meteoindex2 lz2 lm2 lat sol_dec.
Proof.
  intros _. now rewrite !sunset_angle_hour_tail.
Qed.

(** C10, witness: the same day at 06h and at 18h, with different
    longitudes. *)
Lemma sunset_angle_hour_ignores_hour_and_longitude_witness :
  day_of_year [mkTimestamp 2021 3 22 6] = day_of_year [mkTimestamp 2021 3 22 18]
  /\ sunset_angle_hour numpy_globals [mkTimestamp 2021 3 22 6]
       (Num 0) (Num 0) (Scalar (Num 0.5)) (Series [Num 0])
     = sunset_angle_hour numpy_globals [mkTimestamp 2021 3 22 18]
         (Num 15) (Num (-3.5)) (Scalar (Num 0.5)) (Series [Num 0]).
Proof.
  split.
  - reflexivity.
  - apply (sunset_angle_hour_ignores_hour_and_longitude numpy_globals
             [mkTimestamp 2021 3 22 6] [mkTimestamp 2021 3 22 18]).
    reflexivity.
Defined.

(** * Further properties of the module *)

(** ** [day_of_year] *)

(** X1.  [day_of_year] never raises: formatting each timestamp with [%j] and
    reading the strings back gives a sequence of the length of the index
    whose element at each position is the ordinal day of the timestamp at
    that position. *)
Theorem day_of_year_round_trip (meteoindex : list timestamp) :
  exists js,
    day_of_year meteoindex = Ok (Series js)
    /\ length js = length meteoindex
    /\ Forall2 (fun t j => j = Num (INR (yday t))) meteoindex js.
Proof.
  eexists. split; [apply day_of_year_Ok|].
  split; [apply length_map|].
  apply Forall2_map_r_fval. reflexivity.
Qed.

Lemma yday_range (t : timestamp) :
  valid_date t = true ->
  (1 <= yday t <= (if is_leap (year t) then 366 else 365))%nat.
Proof.
  unfold valid_date, yday. destruct t as [y m d h]; cbn [year month day].
  rewrite !andb_true_iff, !Nat.leb_le.
  intros [[[Hm1 Hm12] Hd1] Hd].
  destruct (is_leap y);
    do 13 (destruct m as [|m]; [cbn in *; lia|]); lia.
Qed.

(** X2.  On an index of calendar dates every element of [day_of_year] is a
    whole number between 1 and 366, and at most 365 outside leap years. *)
Theorem day_of_year_range (meteoindex : list timestamp) :
  Forall (fun t => valid_date t = true) meteoindex ->
  exists js,
    day_of_year meteoindex = Ok (Series js)
    /\ Forall2 (fun t j => exists n : nat,
                   j = Num (INR n)
                   /\ (1 <= n <= if is_leap (year t) then 366 else 365)%nat)
         meteoindex js.
Proof.
  intros Hvalid. eexists. split; [apply day_of_year_Ok|].
  induction Hvalid as [|t idx Ht _ IH]; simpl; constructor; [|exact IH].
  exists (yday t). split; [reflexivity|]. now apply yday_range.
Qed.

(** X2, witness: the last day of a leap year and the first of the next. *)
Lemma day_of_year_range_witness :
  exists js,
    day_of_year [mkTimestamp 2020 12 31 23; mkTimestamp 2021 1 1 0] = Ok (Series js)
    /\ Forall2 (fun t j => exists n : nat,
                   j = Num (INR n)
                   /\ (1 <= n <= if is_leap (year t) then 366 else 365)%nat)
         [mkTimestamp 2020 12 31 23; mkTimestamp 2021 1 1 0] js.
Proof.
  apply (day_of_year_range [mkTimestamp 2020 12 31 23; mkTimestamp 2021 1 1 0]).
  repeat constructor.
Defined.

(** ** [sunset_angle] *)

Lemma arccos1_opp (p : R) :
  mirrored PI (np.arccos1 (Num p)) (np.arccos1 (Num (- p))).
Proof.
  unfold mirrored. case_arccos; try lra; try reflexivity.
  f_equal. apply acos_opp.
Qed.

Lemma arccos1_range (x : fval) : nan_or (fun w => 0 <= w <= PI) (np.arccos1 x).
Proof.
  destruct x as [r|]; [|exact I].
  case_arccos; simpl; try exact I. apply acos_bound.
Qed.

(** X3.  [sunset_angle] on a sequence of declinations and a scalar latitude
    never raises, whatever floats it is given: it returns a sequence of the
    same length, and an element is not-a-number where the declination or
    the latitude is, and follows the case split of the formula where both
    are numbers; one bad element leaves the others as they are. *)
Theorem sunset_angle_nan_elementwise (sol_dec : list fval) (lat : fval) :
  exists vs,
    sunset_angle (Series sol_dec) (Scalar lat) = Ok (Series vs)
    /\ length vs = length sol_dec
    /\ Forall2 (sunset_angle_at lat) sol_dec vs.
Proof.
  eexists. split; [apply sunset_angle_fval_series|].
  split; [apply length_map|].
  apply Forall2_map_r_fval. intros [d|]; destruct lat as [l|]; simpl;
    try reflexivity.
  apply arccos1_spec.
Qed.

(** X4.  Opposite latitudes have supplementary sunset angles: at every
    element [sunset_angle(sol_dec, -lat)] is [pi - sunset_angle(sol_dec, lat)],
    and it is not-a-number exactly where the other is. *)
Theorem sunset_angle_opposite_latitude (sol_dec : list R) (lat : R) :
  exists vs ws,
    sunset_angle (Series (map Num sol_dec)) (Scalar (Num lat)) = Ok (Series vs)
    /\ sunset_angle (Series (map Num sol_dec)) (Scalar (Num (- lat)))
       = Ok (Series ws)
    /\ Forall2 (mirrored PI) vs ws.
Proof.
  do 2 eexists. rewrite !sunset_angle_series_scalar.
  split; [reflexivity|]. split; [reflexivity|].
  apply Forall2_map_both_fval. intros sd.
  rewrite tan_neg.
  replace (- tan sd * - tan lat) with (- (- tan sd * tan lat)) by ring.
  apply arccos1_opp.
Qed.

Lemma Forall_map_fval {A : Type} (P : fval -> Prop) (f : A -> fval) (l : list A) :
  (forall x, P (f x)) -> Forall P (map f l).
Proof. intros H; induction l as [|x l IH]; simpl; constructor; auto. Qed.

(** ** The seasons of [solar_declination] and [relative_distance] *)

Lemma solar_declination1_pos (j : R) :
  81 <= j <= 263 -> 0 < solar_declination1 j <= 0.4093.
Proof.
  intros [L U]. pose proof PI_lower as Hpi.
  split; [|apply solar_declination1_bound].
  unfold solar_declination1.
  assert (S : 0 < sin (2 * 3.141592654 / 365 * j - 1.39))
    by (apply sin_gt_0; lra).
  lra.
Qed.

Lemma solar_declination1_neg (j : R) :
  0 <= j <= 80 \/ 264 <= j <= 366 -> -0.4093 <= solar_declination1 j < 0.
Proof.
  intros H. pose proof PI_lower as Hpi. pose proof PI_upper as Hpi'.
  split; [apply solar_declination1_bound|].
  unfold solar_declination1.
  assert (S : sin (2 * 3.141592654 / 365 * j - 1.39) < 0).
  { destruct H as [[L U]|[L U]]; [apply sin_lt_0_var|apply sin_lt_0]; lra. }
  lra.
Qed.

Lemma relative_distance1_far (j : R) :
  92 <= j <= 273 -> 0.967 <= relative_distance1 j < 1.
Proof.
  intros [L U]. pose proof PI_lower as Hpi. pose proof PI_upper as Hpi'.
  split; [apply relative_distance1_bound|].
  unfold relative_distance1.
  assert (C : cos (2 * 3.141592654 / 365 * j) < 0) by (apply cos_lt_0; lra).
  lra.
Qed.

Lemma relative_distance1_near (j : R) :
  0 <= j <= 91 \/ 274 <= j <= 366 -> 1 < relative_distance1 j <= 1.033.
Proof.
  intros H. pose proof PI_lower as Hpi. pose proof PI_upper as Hpi'.
  split; [|apply relative_distance1_bound].
  unfold relative_distance1.
  assert (C : 0 < cos (2 * 3.141592654 / 365 * j)).
  { destruct H as [[L U]|[L U]]; [apply cos_gt_0; lra|].
    replace (cos (2 * 3.141592654 / 365 * j))
      with (cos (2 * PI - 2 * 3.141592654 / 365 * j))
      by (rewrite cos_minus, cos_2PI, sin_2PI; ring).
    apply cos_gt_0; lra. }
  lra.
Qed.

Lemma Forall_map_R (P Q : R -> Prop) (f : R -> R) (l : list R) :
  (forall x, P x -> Q (f x)) -> Forall P l -> Forall Q (map f l).
Proof.
  intros H F; induction F as [|x l Hx _ IH]; simpl; constructor; auto.
Qed.

Lemma amap_lift1_nums (f : R -> R) (js : list R) :
  amap (lift1 f) (Series (map Num js)) = Series (map Num (map f js)).
Proof. cbn [amap]. now rewrite !map_map. Qed.

(** X8.  From day 81 to day 263 of the year the declination computed by
    [solar_declination] is strictly positive (and at most 0.4093). *)
Theorem solar_declination_positive_season (js : list R) :
  Forall (fun j => 81 <= j <= 263) js ->
  exists ds,
    solar_declination (Series (map Num js)) = Series (map Num ds)
    /\ length ds = length js
    /\ Forall (fun d => 0 < d <= 0.4093) ds.
Proof.
  intros H. exists (map solar_declination1 js).
  split; [apply amap_lift1_nums|]. split; [apply length_map|].
  revert H. apply Forall_map_R. exact solar_declination1_pos.
Qed.

(** X8, witness: the first and the last day of the season and the solstice. *)
Lemma solar_declination_positive_season_witness :
  exists ds,
    solar_declination (Series (map Num [81; 172; 263])) = Series (map Num ds)
    /\ length ds = 3%nat
    /\ Forall (fun d => 0 < d <= 0.4093) ds.
Proof.
  apply (solar_declination_positive_season [81; 172; 263]).
  repeat constructor; lra.
Defined.

(** X9.  Up to day 80 and from day 264 on the declination computed by
    [solar_declination] is strictly negative (and at least -0.4093). *)
Theorem solar_declination_negative_season (js : list R) :
  Forall (fun j => 0 <= j <= 80 \/ 264 <= j <= 366) js ->
  exists ds,
    solar_declination (Series (map Num js)) = Series (map Num ds)
    /\ length ds = length js
    /\ Forall (fun d => -0.4093 <= d < 0) ds.
Proof.
  intros H. exists (map solar_declination1 js).
  split; [apply amap_lift1_nums|]. split; [apply length_map|].
  revert H. apply Forall_map_R. exact solar_declination1_neg.
Qed.

(** X9, witness: the days around the two changes of sign. *)
Lemma solar_declination_negative_season_witness :
  exists ds,
    solar_declination (Series (map Num [1; 80; 264; 366])) = Series (map Num ds)
    /\ length ds = 4%nat
    /\ Forall (fun d => -0.4093 <= d < 0) ds.
Proof.
  apply (solar_declination_negative_season [1; 80; 264; 366]).
  repeat constructor; lra.
Defined.

(** X10.  From day 92 to day 273 [relative_distance] is below 1, and up to
    day 91 and from day 274 on it is above 1. *)
Theorem relative_distance_seasons (far near : list R) :
  Forall (fun j => 92 <= j <= 273) far ->
  Forall (fun j => 0 <= j <= 91 \/ 274 <= j <= 366) near ->
  exists fs ns,
    relative_distance (Series (map Num far)) = Series (map Num fs)
    /\ relative_distance (Series (map Num near)) = Series (map Num ns)
    /\ Forall (fun d => 0.967 <= d < 1) fs
    /\ Forall (fun d => 1 < d <= 1.033) ns.
Proof.
  intros Hf Hn.
  exists (map relative_distance1 far), (map relative_distance1 near).
  split; [apply amap_lift1_nums|]. split; [apply amap_lift1_nums|].
  split.
  - revert Hf. apply Forall_map_R. exact relative_distance1_far.
  - revert Hn. apply Forall_map_R. exact relative_distance1_near.
Qed.

(** X10, witness: the days around the two crossings of 1. *)
Lemma relative_distance_seasons_witness :
  exists fs ns,
    relative_distance (Series (map Num [92; 273])) = Series (map Num fs)
    /\ relative_distance (Series (map Num [1; 91; 274; 366])) = Series (map Num ns)
    /\ Forall (fun d => 0.967 <= d < 1) fs
    /\ Forall (fun d => 1 < d <= 1.033) ns.
Proof.
  apply (relative_distance_seasons [92; 273] [1; 91; 274; 366]).
  - repeat constructor; lra.
  - repeat constructor; lra.
Defined.

(** ** The sunset angle by season and hemisphere *)








(** ** The hour angles with numpy's [clip] and [maximum] *)

(** Case analysis on the comparisons of nested [Rmin] and [Rmax], the
    innermost first. *)
Ltac case_Rle :=
  repeat match goal with
         | |- context [Rle_dec ?a ?b] =>
             lazymatch a with
             | context [Rle_dec _ _] => fail
             | _ =>
                 lazymatch b with
                 | context [Rle_dec _ _] => fail
                 | _ => destruct (Rle_dec a b)
                 end
             end
         end.

Lemma omega_at_closed (w : R) :
  0 <= w <= PI ->
  omega1_at (Num w) = Num (Rmin (PI / 24) w)
  /\ omega2_at (Num w) = Num (Rmin (PI / 8) w).
Proof.
  intros [W0 W1]. pose proof PI_RGT_0.
  unfold omega1_at, omega2_at, clip1. cbn [lift1 lift2].
  split; f_equal; unfold Rmin, Rmax; case_Rle; lra.
Qed.

Lemma omega_at_hour_angles_closed (lat sol_dec : fval) :
  hour_angles_closed lat sol_dec
    (omega1_at (np.arccos1 (lift2 Rmult (lift1 Ropp (lift1 tan lat))
                                        (lift1 tan sol_dec))))
    (omega2_at (np.arccos1 (lift2 Rmult (lift1 Ropp (lift1 tan lat))
                                        (lift1 tan sol_dec)))).
Proof.
  unfold hour_angles_closed.
  pose proof (arccos1_range (lift2 Rmult (lift1 Ropp (lift1 tan lat))
                                         (lift1 tan sol_dec))) as W.
  destruct (np.arccos1 _) as [w|]; [|split; reflexivity].
  apply omega_at_closed, W.
Qed.

(** X12.  With numpy's [clip] and [maximum] bound, the pair returned by
    [sunset_angle_hour] is, at every element, [omega1 = min(pi/24, omegas)]
    and [omega2 = min(pi/8, omegas)] where the sunset angle [omegas] is a
    number: the lower bound [-omegas], the maximum of [omega1] with itself
    and the final clip change nothing. *)
Theorem sunset_angle_hour_closed_form (G : namespace)
    (meteoindex : list timestamp) (lz lm lat : fval) (sol_dec : list fval) :
  G !! "clip" = Some (fn3 np.clip) ->
  G !! "maximum" = Some (fn2 np.maximum) ->
  exists o2 o1,
    sunset_angle_hour G meteoindex lz lm (Scalar lat) (Series sol_dec)
    = Ok (Series o2, Series o1)
    /\ Forall3 (hour_angles_closed lat) sol_dec o1 o2.
Proof.
  intros Hclip Hmax. do 2 eexists.
  split; [apply (sunset_angle_hour_series G Hclip Hmax)|].
  apply Forall3_map_fval. intros d. apply omega_at_hour_angles_closed.
Qed.

(** X12, witness: the spring equinox at 0.5 rad north. *)
Lemma sunset_angle_hour_closed_form_witness :
  exists o2 o1,
    sunset_angle_hour numpy_globals [mkTimestamp 2021 3 22 12] (Num 0) (Num 0)
      (Scalar (Num 0.5)) (Series [Num 0])
    = Ok (Series o2, Series o1)
    /\ Forall3 (hour_angles_closed (Num 0.5)) [Num 0] o1 o2.
Proof.
  apply (sunset_angle_hour_closed_form numpy_globals [mkTimestamp 2021 3 22 12]
           (Num 0) (Num 0) (Num 0.5) [Num 0]).
  - apply numpy_globals_clip.
  - apply numpy_globals_maximum.
Defined.

(** ** The chord of the sine *)

Lemma sin_chord (a b : R) :
  0 <= a <= b -> b <= PI -> (b - a) * cos b <= sin b - sin a.
Proof.
  intros [A0 [AB|<-]] B; [|lra].
  destruct (MVT_cor2 sin cos a b AB) as (c & E & C).
  { intros x _. apply derivable_pt_lim_sin. }
  assert (D : cos b <= cos c) by (apply cos_decr_1; lra).
  rewrite E. nra.
Qed.

(** ** [extraterrestrial_r] *)

Lemma amap_amap (f g : fval -> fval) (a : arr) :
  amap f (amap g a) = amap (fun x => f (g x)) a.
Proof. destruct a; simpl; [reflexivity|now rewrite map_map]. Qed.

Lemma amap_ext_nums (f g : fval -> fval) (js : list R) :
  (forall j, f (Num j) = g (Num j)) ->
  amap f (Series (map Num js)) = amap g (Series (map Num js)).
Proof.
  intros H. cbn [amap]. f_equal. rewrite !map_map. apply map_ext. exact H.
Qed.

Lemma sunset_angle_scalar_l (lat : fval) (g : fval -> fval) (a : arr) :
  sunset_angle (Scalar lat) (amap g a)
  = Ok (amap (fun x => np.arccos1
                (lift2 Rmult (lift1 Ropp (lift1 tan lat)) (lift1 tan (g x)))) a).
Proof.
  unfold sunset_angle, np.tan, neg, mul, np.arccos. cbn [amap].
  rewrite amap_amap, broadcast2_scalar_l, bind_Ok. now rewrite amap_amap.
Qed.

Lemma index_days_nums (meteoindex : list timestamp) :
  Series (map (fun t => Num (INR (yday t))) meteoindex)
  = Series (map Num (map (fun t => INR (yday t)) meteoindex)).
Proof. now rewrite map_map. Qed.

Lemma extraterrestrial_r_series (meteoindex : list timestamp) (lat : R) :
  extraterrestrial_r meteoindex (Scalar (Num lat))
  = Ok (Series (map (fun t => extraterrestrial_r1 (INR (yday t)) lat) meteoindex)).
Proof.
  unfold extraterrestrial_r. rewrite day_of_year_Ok, bind_Ok. cbv zeta.
  rewrite index_days_nums.
  set (J := Series (map Num (map (fun t => INR (yday t)) meteoindex))).
  unfold solar_declination, relative_distance.
  rewrite sunset_angle_scalar_l, bind_Ok.
  unfold np.sin, np.cos, mul, add. cbn [amap]. rewrite !amap_amap.
  repeat first [ rewrite broadcast2_scalar_r | rewrite broadcast2_same
               | rewrite amap_amap | rewrite bind_Ok ].
  f_equal. unfold J. rewrite (amap_ext_nums _ (fun x =>
    match x with Num j => extraterrestrial_r1 j lat | NaN => NaN end)).
  - cbn [amap]. now rewrite !map_map.
  - intros j. unfold extraterrestrial_r1. cbn [lift1 lift2].
    destruct (np.arccos1 _) as [w|]; reflexivity.
Qed.

Lemma sin_tan_cos (x : R) : 0 < cos x -> sin x = tan x * cos x.
Proof. intros H. unfold tan. field. lra. Qed.

Lemma cos_declination_pos (j : R) : 0 < cos (solar_declination1 j).
Proof.
  pose proof (solar_declination1_bound j). pose proof PI_lower.
  apply cos_gt_0; lra.
Qed.

Lemma radiation_factor_pos (j : R) : 0 < 118.08 / 3.141592654 * relative_distance1 j.
Proof. pose proof (relative_distance1_bound j). nra. Qed.

Lemma extraterrestrial_r1_nonneg (j lat : R) :
  - (PI / 2) < lat < PI / 2 ->
  radiation_of (np.arccos1 (Num (- tan lat * tan (solar_declination1 j))))
               (extraterrestrial_r1 j lat).
Proof.
  intros Hlat. unfold extraterrestrial_r1, radiation_of. cbv zeta.
  set (d := solar_declination1 j).
  pose proof (cos_declination_pos j) as Cd. fold d in Cd.
  assert (Cl : 0 < cos lat) by (apply cos_gt_0; lra).
  pose proof (radiation_factor_pos j) as K.
  set (k := 118.08 / 3.141592654 * relative_distance1 j) in *.
  unfold np.arccos1.
  destruct (Rle_dec (-1) (- tan lat * tan d)) as [P1|]; [|reflexivity].
  destruct (Rle_dec (- tan lat * tan d) 1) as [P2|]; [|reflexivity].
  cbn [lift1]. eexists. split; [reflexivity|].
  set (p := - tan lat * tan d) in *.
  pose proof (acos_bound p) as [W0 W1].
  pose proof (cos_acos p ltac:(lra)) as Cw.
  pose proof (sin_chord 0 (acos p) ltac:(lra) W1) as Ch.
  rewrite sin_0 in Ch.
  set (w := acos p) in *.
  assert (E : w * (sin d * sin lat) + cos d * cos lat * sin w
              = cos d * cos lat * (sin w - w * cos w)).
  { rewrite (sin_tan_cos d Cd), (sin_tan_cos lat Cl), Cw. unfold p. ring. }
  rewrite E.
  assert (C : 0 < cos d * cos lat) by (apply Rmult_lt_0_compat; assumption).
  assert (F : 0 <= sin w - w * cos w) by lra.
  apply Rmult_le_pos; [lra|]. apply Rmult_le_pos; lra.
Qed.

(** X13.  For a latitude strictly between the poles [extraterrestrial_r]
    never raises; at every element it is not-a-number exactly where the
    sunset angle is, and a non-negative number elsewhere. *)
Theorem extraterrestrial_r_nonneg (meteoindex : list timestamp) (lat : R) :
  - (PI / 2) < lat < PI / 2 ->
  exists j ws rs,
    day_of_year meteoindex = Ok j
    /\ sunset_angle (Scalar (Num lat)) (solar_declination j) = Ok (Series ws)
    /\ extraterrestrial_r meteoindex (Scalar (Num lat)) = Ok (Series rs)
    /\ length rs = length meteoindex
    /\ Forall2 radiation_of ws rs.
Proof.
  intros Hlat. do 3 eexists. split; [apply day_of_year_Ok|].
  unfold solar_declination. rewrite sunset_angle_scalar_l.
  cbn [amap]. rewrite map_map. cbn [lift1 lift2].
  split; [reflexivity|]. split; [apply extraterrestrial_r_series|].
  split; [apply length_map|].
  apply Forall2_map_both_fval. intros t.
  apply (extraterrestrial_r1_nonneg (INR (yday t)) lat Hlat).
Qed.

(** X13, witness: two days of the year at 0.5 rad north. *)
Lemma extraterrestrial_r_nonneg_witness :
  exists j ws rs,
    day_of_year [mkTimestamp 2021 6 21 12; mkTimestamp 2021 12 21 12] = Ok j
    /\ sunset_angle (Scalar (Num (1 / 2))) (solar_declination j) = Ok (Series ws)
    /\ extraterrestrial_r [mkTimestamp 2021 6 21 12; mkTimestamp 2021 12 21 12]
         (Scalar (Num (1 / 2))) = Ok (Series rs)
    /\ length rs = 2%nat
    /\ Forall2 radiation_of ws rs.
Proof.
  apply (extraterrestrial_r_nonneg
           [mkTimestamp 2021 6 21 12; mkTimestamp 2021 12 21 12] (1 / 2)).
  pose proof PI_lower. lra.
Defined.

Lemma cos_lower (x : R) : 1 - x * x / 2 <= cos x.
Proof.
  replace x with (2 * (x / 2)) at 3 by field.
  rewrite cos_2a_sin.
  pose proof (Rabs_sin_le (x / 2)) as S.
  assert (Q : sin (x / 2) * sin (x / 2) <= (x / 2) * (x / 2)).
  { unfold Rabs in S.
    destruct (Rcase_abs (sin (x / 2))); destruct (Rcase_abs (x / 2)); nra. }
  lra.
Qed.

Lemma extraterrestrial_r1_equator (j : R) :
  exists x, extraterrestrial_r1 j 0 = Num x /\ 33 <= x <= 39.
Proof.
  unfold extraterrestrial_r1. cbv zeta.
  replace (- tan 0 * tan (solar_declination1 j)) with 0 by (rewrite tan_0; ring).
  rewrite arccos1_0. cbn [lift1]. eexists. split; [reflexivity|].
  rewrite sin_0, cos_0, sin_PI2.
  pose proof (relative_distance1_bound j) as [D0 D1].
  pose proof (solar_declination1_bound j) as [S0 S1].
  pose proof (cos_lower (solar_declination1 j)) as CL.
  pose proof (COS_bound (solar_declination1 j)) as [_ CU].
  set (c := cos (solar_declination1 j)) in *.
  set (dr := relative_distance1 j) in *.
  set (sd := solar_declination1 j) in *.
  assert (C0 : 0.916 <= c) by nra.
  replace (118.08 / 3.141592654 * dr * (PI / 2 * (sin sd * 0) + c * 1 * 1))
    with (118.08 / 3.141592654 * (dr * c)) by (field; lra).
  assert (P : 0.967 * 0.916 <= dr * c <= 1.033) by nra.
  lra.
Qed.

(** X14.  At the equator [extraterrestrial_r] is a number between 33 and 39
    at every timestamp of every index: it is never not-a-number there. *)
Theorem extraterrestrial_r_equator (meteoindex : list timestamp) :
  exists rs,
    extraterrestrial_r meteoindex (Scalar (Num 0)) = Ok (Series rs)
    /\ length rs = length meteoindex
    /\ Forall (fun r => exists x, r = Num x /\ 33 <= x <= 39) rs.
Proof.
  eexists. split; [apply extraterrestrial_r_series|].
  split; [apply length_map|].
  apply Forall_map_fval. intros t. apply extraterrestrial_r1_equator.
Qed.

(** ** [extraterrestrial_r_hour] *)

Section NumpyBoundRadiation.

Context (G : namespace).
Hypothesis Hclip : G !! "clip" = Some (fn3 np.clip).
Hypothesis Hmax : G !! "maximum" = Some (fn2 np.maximum).


End NumpyBoundRadiation.




(** X16.  In every namespace the outcome of [extraterrestrial_r_hour]
    depends on the time index through its days of the year only: two calls
    on indexes with the same days return the same outcome, whatever the
    hours of the timestamps and the longitudes [lz] and [lm] are. *)
Theorem extraterrestrial_r_hour_ignores_hour_and_longitude (G : namespace)
    (meteoindex1 meteoindex2 : list timestamp) (lat : arr)
    (lz1 lm1 lz2 lm2 : fval) :
  day_of_year meteoindex1 = day_of_year meteoindex2 ->
  extraterrestrial_r_hour G meteoindex1 lat lz1 lm1
  = extraterrestrial_r_hour G meteoindex2 lat lz2 lm2.
Proof.
  intros H. unfold extraterrestrial_r_hour. rewrite H.
  destruct (day_of_year meteoindex2) as [j|e]; [|reflexivity].
  rewrite !bind_Ok. cbv zeta. now rewrite !sunset_angle_hour_tail.
Qed.

(** X16, witness: the same day at 06h and at 18h, with different
    longitudes. *)
Lemma extraterrestrial_r_hour_ignores_hour_and_longitude_witness :
  day_of_year [mkTimestamp 2021 3 22 6] = day_of_year [mkTimestamp 2021 3 22 18]
  /\ extraterrestrial_r_hour numpy_globals [mkTimestamp 2021 3 22 6]
       (Scalar (Num 0.5)) (Num 0) (Num 0)
     = extraterrestrial_r_hour numpy_globals [mkTimestamp 2021 3 22 18]
         (Scalar (Num 0.5)) (Num 15) (Num (-3.5)).
Proof.
  split.
  - reflexivity.
  - apply (extraterrestrial_r_hour_ignores_hour_and_longitude numpy_globals
             [mkTimestamp 2021 3 22 6] [mkTimestamp 2021 3 22 18]).
    reflexivity.
Defined.
